(** * MediaPipe image classifier task: orchestration layer

    A shallow embedding of
    [mediapipe/tasks/python/vision/image_classifier.py] and of the parts of
    its collaborators that the file calls, followed by the properties the
    specification states about it.

    Python integers are unbounded, so timestamps are [Z]; Python's [//] is
    floor division, which is [Z.div] for the positive divisor used here.
    Dictionaries keyed by stream name are [gmap string _].  Exceptions are
    values of [Error]; a raising call leaves behind whatever state it had
    reached, so computations are functions from a state to an outcome paired
    with the state at the point of return or raise. *)

From Stdlib Require Import ZArith QArith Ascii Sorted.
From stdpp Require Import base option gmap strings list fin_maps.

Local Open Scope Z_scope.

(** ** Exceptions and the state-and-exception monad *)

Module Py.

(** The ways a call is rejected as a usage error: the two of section 7 of
    the specification (wrong entry point for the mode, timestamp that does
    not increase), and a packet set whose members do not share one
    timestamp, which section 4.4 rules out. *)
Inductive UsageFault : Type :=
| WrongRunningMode
| NonIncreasingTimestamp
| UnalignedTimestamps.

Inductive Error : Type :=
| ConfigurationError
| UsageError (fault : UsageFault)
| RuntimeError
| KeyError (key : string)
| PacketTypeError
| NotCallable.


(** An outcome is a raised exception or a returned value. *)
Definition Outcome (A : Type) : Type := Error + A.

(** A computation over a state [S]: the state survives a raise. *)
Definition M (S A : Type) : Type := S -> Outcome A * S.

Definition ret {S A} (a : A) : M S A := fun s => (inr a, s).

Definition raise {S A} (e : Error) : M S A := fun s => (inl e, s).

Definition bind {S A B} (m : M S A) (k : A -> M S B) : M S B :=
  fun s =>
    match m s with
    | (inl e, s') => (inl e, s')
    | (inr a, s') => k a s'
    end.

Definition get {S} : M S S := fun s => (inr s, s).

Definition modify {S} (f : S -> S) : M S unit := fun s => (inr tt, f s).

(** Lift a pure fallible step. *)
Definition lift {S A} (o : Outcome A) : M S A := fun s => (o, s).

End Py.

Import Py.

Declare Scope py_scope.
Delimit Scope py_scope with py.
Notation "x <- m ;; k" := (bind m (fun x => k))
  (at level 100, m at next level, right associativity) : py_scope.
Notation "m ;;; k" := (bind m (fun _ => k))
  (at level 100, right associativity) : py_scope.
Local Open Scope py_scope.

(** ** Module-level constants of image_classifier.py *)

Definition _CLASSIFICATION_RESULT_OUT_STREAM_NAME : string := "classification_result_out".
Definition _CLASSIFICATION_RESULT_TAG : string := "CLASSIFICATION_RESULT".
Definition _IMAGE_IN_STREAM_NAME : string := "image_in".
Definition _IMAGE_OUT_STREAM_NAME : string := "image_out".
Definition _IMAGE_TAG : string := "IMAGE".
Definition _NORM_RECT_NAME : string := "norm_rect_in".
Definition _NORM_RECT_TAG : string := "NORM_RECT".
Definition _TASK_GRAPH_NAME : string :=
  "mediapipe.tasks.vision.image_classifier.ImageClassifierGraph".
Definition _MICRO_SECONDS_PER_MILLISECOND : Z := 1000.

(** ** Running modes and the region of interest *)

(** [vision_task_running_mode.VisionTaskRunningMode]; the specification calls
    the three values SYNC_IMAGE, SYNC_VIDEO and ASYNC_STREAM. *)
Inductive RunningMode : Type := IMAGE | VIDEO | LIVE_STREAM.

#[global] Instance RunningMode_eq_dec : EqDecision RunningMode.
Proof. solve_decision. Defined.

(** [rect.NormalizedRect]: coordinates relative to the image size.  The
    values the file itself writes (0.5 and 1) are exact rationals. *)
Record NormalizedRect : Type := {
  x_center : Q;
  y_center : Q;
  width : Q;
  height : Q
}.

(** Lines 53-55. *)
Definition _build_full_image_norm_rect : NormalizedRect :=
  {| x_center := 1 # 2; y_center := 1 # 2; width := 1 # 1; height := 1 # 1 |}.

(** The expression [roi if roi is not None else _build_full_image_norm_rect()]
    that opens each of the three entry points (lines 193, 234, 284). *)
Definition norm_rect_of (roi : option NormalizedRect) : NormalizedRect :=
  match roi with
  | Some r => r
  | None => _build_full_image_norm_rect
  end.

(** ** Packet timestamps *)

(** A packet's timestamp is unset until [at] binds it to a time in
    microseconds. *)
Inductive Timestamp : Type :=
| Unset
| At (us : Z).

#[global] Instance Timestamp_eq_dec : EqDecision Timestamp.
Proof. solve_decision. Defined.

(** [Timestamp.value]; the unset timestamp is the least 64-bit value. *)
Definition value (t : Timestamp) : Z :=
  match t with
  | At us => us
  | Unset => - 2 ^ 63
  end.

(** ** Collaborators the file imports

    The payload types that cross the boundary to the graph runtime, and the
    conversions other modules of the package provide, are opaque to the
    orchestration layer.  They are gathered in one interface; every result
    below holds for each implementation of it. *)

(** The base-options message: the one field the file writes, and all the
    fields it does not touch. *)
Record BaseOptionsProto (Rest : Type) : Type := {
  use_stream_mode : bool;
  base_rest : Rest
}.
Arguments use_stream_mode {Rest} _.
Arguments base_rest {Rest} _.
Arguments Build_BaseOptionsProto {Rest} _ _.

Class Framework : Type := {
  (** [image_module.Image] *)
  Image : Type;
  (** the message [rect.NormalizedRect.to_pb2] produces *)
  NormalizedRectProto : Type;
  norm_rect_to_pb2 : NormalizedRect -> NormalizedRectProto;
  (** one entry of [classifications_pb2.ClassificationResult.classifications]
      and its container [classifications.Classifications] *)
  ClassificationsProto : Type;
  Classifications : Type;
  create_from_pb2 : ClassificationsProto -> Classifications;
  (** [base_options_module.BaseOptions] and its [to_pb2] *)
  BaseOptions : Type;
  BaseRest : Type;
  base_options_to_pb2 : BaseOptions -> BaseOptionsProto BaseRest;
  base_options_of_model_path : string -> BaseOptions;
  (** [classifier_options.ClassifierOptions], its default and its [to_pb2] *)
  ClassifierOptions : Type;
  ClassifierOptionsProto : Type;
  default_classifier_options : ClassifierOptions;
  classifier_options_to_pb2 : ClassifierOptions -> ClassifierOptionsProto;
  (** the user's result callbacks; calling one is an observable event *)
  Callback : Type
}.

Section ImageClassifier.

Context `{F : Framework}.

(** *** Packets ([mediapipe.python] packet, packet_creator, packet_getter) *)

(** [classifications_pb2.ClassificationResult] *)
Record ClassificationResultProto : Type := {
  proto_classifications : list ClassificationsProto
}.

Inductive ProtoMessage : Type :=
| NormalizedRectMessage (r : NormalizedRectProto)
| ClassificationResultMessage (c : ClassificationResultProto).

Inductive Payload : Type :=
| ImagePayload (image : Image)
| ProtoPayload (message : ProtoMessage).

Record Packet : Type := {
  payload : option Payload;
  timestamp : Timestamp
}.

Abbreviation PacketMap := (gmap string Packet).

Definition create_image (image : Image) : Packet :=
  {| payload := Some (ImagePayload image); timestamp := Unset |}.

Definition create_proto (message : ProtoMessage) : Packet :=
  {| payload := Some (ProtoPayload message); timestamp := Unset |}.

(** [Packet.at]: the same payload at the given timestamp. *)
Definition at_ (p : Packet) (us : Z) : Packet :=
  {| payload := payload p; timestamp := At us |}.

Definition is_empty (p : Packet) : bool :=
  match payload p with
  | None => true
  | Some _ => false
  end.

Definition get_image (p : Packet) : Outcome Image :=
  match payload p with
  | Some (ImagePayload image) => inr image
  | _ => inl PacketTypeError
  end.

Definition get_proto (p : Packet) : Outcome ProtoMessage :=
  match payload p with
  | Some (ProtoPayload message) => inr message
  | _ => inl PacketTypeError
  end.

(** [classifications_pb2.ClassificationResult().CopyFrom(message)] *)
Definition CopyFrom (message : ProtoMessage) : Outcome ClassificationResultProto :=
  match message with
  | ClassificationResultMessage c => inr c
  | _ => inl PacketTypeError
  end.

(** [d[key]] on a Python mapping. *)
Definition getitem {S} (d : PacketMap) (key : string) : M S Packet :=
  match d !! key with
  | Some p => ret p
  | None => raise (KeyError key)
  end.

(** [classifications.ClassificationResult]: built from the list alone. *)
Record ClassificationResult : Type := {
  classifications : list Classifications
}.

(** The list comprehension shared by lines 146-149, 204-207 and 249-252. *)
Definition decode_classification_result
    (classification_result_proto : ClassificationResultProto) : ClassificationResult :=
  {| classifications :=
       map create_from_pb2 (proto_classifications classification_result_proto) |}.

(** *** Options (lines 58-90) *)

Record ImageClassifierOptions : Type := {
  base_options : BaseOptions;
  running_mode : RunningMode;
  classifier_options : ClassifierOptions;
  result_callback : option Callback
}.

(** [image_classifier_graph_options_pb2.ImageClassifierGraphOptions] *)
Record ImageClassifierGraphOptionsProto : Type := {
  pb_base_options : BaseOptionsProto BaseRest;
  pb_classifier_options : ClassifierOptionsProto
}.

(** Lines 82-90. *)
Definition to_pb2 (self : ImageClassifierOptions) : ImageClassifierGraphOptionsProto :=
  let base_options_proto := base_options_to_pb2 (base_options self) in
  let base_options_proto :=
    {| use_stream_mode :=
         if decide (running_mode self = IMAGE) then false else true;
       base_rest := base_rest base_options_proto |} in
  let classifier_options_proto :=
    classifier_options_to_pb2 (classifier_options self) in
  {| pb_base_options := base_options_proto;
     pb_classifier_options := classifier_options_proto |}.

(** *** Graph description handed to the runtime *)

(** [':'.join(parts)] *)
Definition join (sep : string) (parts : list string) : string :=
  String.concat sep parts.

(** [task_info_module.TaskInfo] *)
Record TaskInfo : Type := {
  task_graph : string;
  input_streams : list string;
  output_streams : list string;
  task_options : ImageClassifierOptions
}.

(** Modelled from the spec: [TaskInfo.generate_graph_config] is not in the
    file.  Section 6 says the graph wiring handed to the runtime consists of
    the named channels and of the request for flow limiting, so the
    configuration records the task description and that request. *)
Record GraphConfig : Type := {
  graph_source : TaskInfo;
  enable_flow_limiting : bool
}.

Definition generate_graph_config (self : TaskInfo) (enable_flow_limiting : bool)
    : GraphConfig :=
  {| graph_source := self; enable_flow_limiting := enable_flow_limiting |}.

(** *** State of one task instance *)

(** One invocation of a user callback, as an observer sees it. *)
Record CallbackCall : Type := {
  callee : Callback;
  call_result : ClassificationResult;
  call_image : Image;
  call_timestamp_ms : Z
}.

(** What changes while a task is used: the timestamp guard's last accepted
    timestamp (in the unit of the packets, microseconds), the packet sets
    pushed into the runtime, oldest first, and the callback invocations made
    so far, oldest first. *)
Record TaskState : Type := {
  last_accepted : option Z;
  submitted : list PacketMap;
  callback_calls : list CallbackCall
}.

Definition initial_state : TaskState :=
  {| last_accepted := None; submitted := []; callback_calls := [] |}.

Definition record_timestamp (ts : Z) (st : TaskState) : TaskState :=
  {| last_accepted := Some ts;
     submitted := submitted st;
     callback_calls := callback_calls st |}.

Definition push_inputs (inputs : PacketMap) (st : TaskState) : TaskState :=
  {| last_accepted := last_accepted st;
     submitted := submitted st ++ [inputs];
     callback_calls := callback_calls st |}.

Definition log_call (c : CallbackCall) (st : TaskState) : TaskState :=
  {| last_accepted := last_accepted st;
     submitted := submitted st;
     callback_calls := callback_calls st ++ [c] |}.


(** The graph runtime is an opaque collaborator: given the packet sets it
    has received before and the one it receives now, it answers a blocking
    request with an output packet set, or fails. *)
Variable runner_process : list PacketMap -> PacketMap -> option PacketMap.

(** *** The base class [base_vision_task_api.BaseVisionTaskApi] *)

Record BaseVisionTaskApi : Type := {
  _graph_config : GraphConfig;
  _running_mode : RunningMode;
  _packet_callback : option (PacketMap -> M TaskState unit)
}.

(** Modelled from the spec: the constructor of [BaseVisionTaskApi] is not in
    the file.  Sections 3 and 4.1: a callback is present iff the mode is
    ASYNC_STREAM; a callback in a non-async mode, or none in async mode, is a
    configuration error raised at construction, and no task is created. *)
Definition BaseVisionTaskApi_init (graph_config : GraphConfig)
    (running_mode : RunningMode)
    (packet_callback : option (PacketMap -> M TaskState unit))
    : Outcome BaseVisionTaskApi :=
  let self :=
    {| _graph_config := graph_config;
       _running_mode := running_mode;
       _packet_callback := packet_callback |} in
  if decide (running_mode = LIVE_STREAM) then
    match packet_callback with
    | None => inl ConfigurationError
    | Some _ => inr self
    end
  else
    match packet_callback with
    | Some _ => inl ConfigurationError
    | None => inr self
    end.

(** Modelled from the spec: the timestamp monotonicity guard is not in the
    file.  Section 4.3: if a previous timestamp was accepted and
    [ts <= previous] the guard fails with a monotonicity violation,
    otherwise it records [ts] as the last accepted value and succeeds. *)
Definition accept (ts : Z) : M TaskState unit :=
  st <- get;;
  match last_accepted st with
  | Some previous =>
      if ts <=? previous
      then raise (UsageError NonIncreasingTimestamp)
      else modify (record_timestamp ts)
  | None => modify (record_timestamp ts)
  end.

(** Modelled from the spec: section 4.4 calls the one timestamp that the
    members of a packet set share its synchronization key.  The key of a
    set is that timestamp; a set that is empty, or whose members are
    untimed or disagree, has none. *)
Definition synchronization_key (inputs : PacketMap) : option Z :=
  match map_to_list inputs with
  | [] => None
  | (_, p) :: others =>
      match timestamp p with
      | Unset => None
      | At ts =>
          if forallb (fun kp => bool_decide (timestamp kp.2 = At ts)) others
          then Some ts
          else None
      end
  end.

(** Modelled from the spec: the runtime adapter is not in the file.
    Section 4.5: [invoke] pushes the packet set and blocks for the paired
    output, failing with a runtime error when the runtime produces none;
    [submit] pushes the packet set and returns at once. *)
Definition invoke (inputs : PacketMap) : M TaskState PacketMap :=
  st <- get;;
  modify (push_inputs inputs);;;
  match runner_process (submitted st) inputs with
  | Some output_packets => ret output_packets
  | None => raise RuntimeError
  end.

Definition submit (inputs : PacketMap) : M TaskState unit :=
  modify (push_inputs inputs).

(** Modelled from the spec: the three guarded methods of
    [BaseVisionTaskApi] are not in the file.  Section 4.1: each checks,
    before doing any work, that the task was constructed with the matching
    mode, and signals a usage error otherwise.  Section 4.3: the two
    timestamped modes consult the guard before the packet set is
    dispatched; the image mode does not. *)
Definition _process_image_data (self : BaseVisionTaskApi) (inputs : PacketMap)
    : M TaskState PacketMap :=
  if decide (_running_mode self = IMAGE) then invoke inputs
  else raise (UsageError WrongRunningMode).

Definition guard_inputs (inputs : PacketMap) : M TaskState unit :=
  match synchronization_key inputs with
  | Some ts => accept ts
  | None => raise (UsageError UnalignedTimestamps)
  end.

Definition _process_video_data (self : BaseVisionTaskApi) (inputs : PacketMap)
    : M TaskState PacketMap :=
  if decide (_running_mode self = VIDEO) then
    guard_inputs inputs;;;
    invoke inputs
  else raise (UsageError WrongRunningMode).

Definition _send_live_stream_data (self : BaseVisionTaskApi) (inputs : PacketMap)
    : M TaskState unit :=
  if decide (_running_mode self = LIVE_STREAM) then
    guard_inputs inputs;;;
    submit inputs
  else raise (UsageError WrongRunningMode).

(** *** The class [ImageClassifier] (lines 93-292) *)

Definition ImageClassifier : Type := BaseVisionTaskApi.

(** The call [options.result_callback(result, image, timestamp_ms)] of lines
    152-153: calling [None] raises, calling a callback is logged. *)
Definition call_result_callback (options : ImageClassifierOptions)
    (classification_result : ClassificationResult) (image : Image)
    (timestamp_ms : Z) : M TaskState unit :=
  match result_callback options with
  | Some callback =>
      modify (log_call {| callee := callback;
                          call_result := classification_result;
                          call_image := image;
                          call_timestamp_ms := timestamp_ms |})
  | None => raise NotCallable
  end.

(** Lines 137-153: the closure [packets_callback] over [options]. *)
Definition packets_callback (options : ImageClassifierOptions)
    (output_packets : PacketMap) : M TaskState unit :=
  image_out <- getitem output_packets _IMAGE_OUT_STREAM_NAME;;
  if is_empty image_out then ret tt
  else
    result_out <- getitem output_packets _CLASSIFICATION_RESULT_OUT_STREAM_NAME;;
    message <- lift (get_proto result_out);;
    classification_result_proto <- lift (CopyFrom message);;
    let classification_result :=
      decode_classification_result classification_result_proto in
    image_out <- getitem output_packets _IMAGE_OUT_STREAM_NAME;;
    image <- lift (get_image image_out);;
    image_out <- getitem output_packets _IMAGE_OUT_STREAM_NAME;;
    let timestamp := timestamp image_out in
    call_result_callback options classification_result image
      (value timestamp / _MICRO_SECONDS_PER_MILLISECOND).

(** Lines 155-167: the task description. *)
Definition task_info_of (options : ImageClassifierOptions) : TaskInfo :=
  {| task_graph := _TASK_GRAPH_NAME;
     input_streams :=
       [ join ":" [_IMAGE_TAG; _IMAGE_IN_STREAM_NAME];
         join ":" [_NORM_RECT_TAG; _NORM_RECT_NAME] ];
     output_streams :=
       [ join ":" [_CLASSIFICATION_RESULT_TAG;
                   _CLASSIFICATION_RESULT_OUT_STREAM_NAME];
         join ":" [_IMAGE_TAG; _IMAGE_OUT_STREAM_NAME] ];
     task_options := options |}.

(** Lines 121-172, with the closure and the task description above. *)
Definition create_from_options (options : ImageClassifierOptions)
    : Outcome ImageClassifier :=
  let task_info := task_info_of options in
  BaseVisionTaskApi_init
    (generate_graph_config task_info
       (bool_decide (running_mode options = LIVE_STREAM)))
    (running_mode options)
    (match result_callback options with
     | Some _ => Some (packets_callback options)
     | None => None
     end).

(** Lines 115-118. *)
Definition create_from_model_path (model_path : string) : Outcome ImageClassifier :=
  let base_options := base_options_of_model_path model_path in
  let options :=
    {| base_options := base_options;
       running_mode := IMAGE;
       classifier_options := default_classifier_options;
       result_callback := None |} in
  create_from_options options.

(** The dictionary of lines 194-197. *)
Definition untimed_inputs (image : Image) (norm_rect : NormalizedRect) : PacketMap :=
  {[ _IMAGE_IN_STREAM_NAME := create_image image;
     _NORM_RECT_NAME :=
       create_proto (NormalizedRectMessage (norm_rect_to_pb2 norm_rect)) ]}.

(** The dictionary of lines 235-242, written again at lines 285-292. *)
Definition timed_inputs (image : Image) (norm_rect : NormalizedRect)
    (timestamp_ms : Z) : PacketMap :=
  {[ _IMAGE_IN_STREAM_NAME :=
       at_ (create_image image)
           (timestamp_ms * _MICRO_SECONDS_PER_MILLISECOND);
     _NORM_RECT_NAME :=
       at_ (create_proto (NormalizedRectMessage (norm_rect_to_pb2 norm_rect)))
           (timestamp_ms * _MICRO_SECONDS_PER_MILLISECOND) ]}.

(** Lines 199-207, written again at lines 244-252. *)
Definition classification_result_of (output_packets : PacketMap)
    : M TaskState ClassificationResult :=
  result_out <- getitem output_packets _CLASSIFICATION_RESULT_OUT_STREAM_NAME;;
  message <- lift (get_proto result_out);;
  classification_result_proto <- lift (CopyFrom message);;
  ret (decode_classification_result classification_result_proto).

(** Lines 193-207. *)
Definition classify (self : ImageClassifier) (image : Image)
    (roi : option NormalizedRect) : M TaskState ClassificationResult :=
  let norm_rect := norm_rect_of roi in
  output_packets <- _process_image_data self (untimed_inputs image norm_rect);;
  classification_result_of output_packets.

(** Lines 234-252. *)
Definition classify_for_video (self : ImageClassifier) (image : Image)
    (timestamp_ms : Z) (roi : option NormalizedRect)
    : M TaskState ClassificationResult :=
  let norm_rect := norm_rect_of roi in
  output_packets <-
    _process_video_data self (timed_inputs image norm_rect timestamp_ms);;
  classification_result_of output_packets.

(** Lines 284-292. *)
Definition classify_async (self : ImageClassifier) (image : Image)
    (timestamp_ms : Z) (roi : option NormalizedRect) : M TaskState unit :=
  let norm_rect := norm_rect_of roi in
  _send_live_stream_data self (timed_inputs image norm_rect timestamp_ms).

(** Modelled from the spec: the runtime's delivery mechanism is not in the
    file.  Section 4.6: the dispatcher is registered once and invoked by
    the runtime whenever an output packet set becomes available. *)
Definition deliver (self : ImageClassifier) (output_packets : PacketMap)
    : M TaskState unit :=
  match _packet_callback self with
  | Some callback => callback output_packets
  | None => ret tt
  end.

(** *** Observations used to state the properties *)

(** The packet sets a computation pushes into the runtime when run from
    [st]: what it appends to the list of received packet sets. *)
Definition sent_by {A} (m : M TaskState A) (st : TaskState) : list PacketMap :=
  drop (length (submitted st)) (submitted (snd (m st))).


(** The reading of the specification's output result for the blocking entry
    points: the returned value holds the echoed input image and, where the
    call has one, the timestamp in milliseconds, so both can be read off
    it. *)
Definition result_holds_image_and_timestamp : Prop :=
  exists (image_of : ClassificationResult -> Image)
         (timestamp_ms_of : ClassificationResult -> Z),
    forall (self : ImageClassifier) (st st' : TaskState) (image : Image)
           (timestamp_ms : Z) (roi : option NormalizedRect)
           (r : ClassificationResult),
      (classify self image roi st = (inr r, st') -> image_of r = image)
      /\ (classify_for_video self image timestamp_ms roi st = (inr r, st') ->
          image_of r = image /\ timestamp_ms_of r = timestamp_ms).

End ImageClassifier.

(** ** The dispatcher as a value, and runs of deliveries *)

Section Dispatch.

Context `{F : Framework}.

(** What one run of [packets_callback] (lines 137-153) comes to, read top to
    bottom: the exception it raises, or no invocation (the delivery is
    dropped), or the one invocation it makes. *)
Definition callback_decision (options : ImageClassifierOptions)
    (output_packets : gmap string Packet) : Outcome (option CallbackCall) :=
  match output_packets !! _IMAGE_OUT_STREAM_NAME with
  | None => inl (KeyError _IMAGE_OUT_STREAM_NAME)
  | Some image_out =>
      if is_empty image_out then inr None
      else
        match output_packets !! _CLASSIFICATION_RESULT_OUT_STREAM_NAME with
        | None => inl (KeyError _CLASSIFICATION_RESULT_OUT_STREAM_NAME)
        | Some result_out =>
            match get_proto result_out with
            | inl e => inl e
            | inr message =>
                match CopyFrom message with
                | inl e => inl e
                | inr classification_result_proto =>
                    match get_image image_out with
                    | inl e => inl e
                    | inr image =>
                        match result_callback options with
                        | None => inl NotCallable
                        | Some callback =>
                            inr (Some
                              {| callee := callback;
                                 call_result :=
                                   decode_classification_result
                                     classification_result_proto;
                                 call_image := image;
                                 call_timestamp_ms :=
                                   value (timestamp image_out)
                                   / _MICRO_SECONDS_PER_MILLISECOND |})
                        end
                    end
                end
            end
        end
  end.

(** The invocation a delivery leads to, if any. *)
Definition delivered_call (options : ImageClassifierOptions)
    (output_packets : gmap string Packet) : option CallbackCall :=
  match callback_decision options output_packets with
  | inr (Some call) => Some call
  | _ => None
  end.

(** The runtime calls the dispatcher once per output packet set, one after
    the other; an exception in one call does not undo the calls before it. *)
Definition deliver_all (options : ImageClassifierOptions)
    (deliveries : list (gmap string Packet)) (st : TaskState) : TaskState :=
  foldl (fun st output_packets =>
           snd (packets_callback options output_packets st))
        st deliveries.

(** The timestamp (in microseconds) of the image output of a delivery. *)
Definition image_out_us (output_packets : gmap string Packet) : option Z :=
  (fun image_out => value (timestamp image_out))
    <$> output_packets !! _IMAGE_OUT_STREAM_NAME.

(** A caller sending frames one after the other through [classify_async],
    carrying on after a rejected frame. *)
Definition send_all (self : ImageClassifier)
    (frames : list (Image * Z * option NormalizedRect)) (st : TaskState)
    : TaskState :=
  foldl (fun st frame =>
           snd (classify_async self frame.1.1 frame.1.2 frame.2 st))
        st frames.

(** The timestamps of the packet sets the runtime has received. *)
Definition submitted_keys (st : TaskState) : list Z :=
  omap synchronization_key (submitted st).

(** The packet sets received carry strictly increasing timestamps, and the
    guard is at or above every one of them. *)
Definition guard_covers (st : TaskState) : Prop :=
  StronglySorted Z.lt (submitted_keys st)
  /\ forall k, k ∈ submitted_keys st ->
       exists previous, last_accepted st = Some previous /\ k <= previous.

End Dispatch.

(** The stream name of a ["TAG:name"] entry of a task description: what
    follows the first colon. *)
Fixpoint stream_name (tagged : string) : string :=
  match tagged with
  | EmptyString => EmptyString
  | String c rest => if Ascii.eqb c ":"%char then rest else stream_name rest
  end.

(** ** A stub implementation of the collaborators

    Images and category groups are named by strings, messages are the values
    they are built from, and the stub runtime answers every request with a
    fixed category group and echoes the input image packet.  It serves to
    run the model on concrete inputs. *)

Module Stub.

Definition framework : Framework :=
  {| Image := string;
     NormalizedRectProto := NormalizedRect;
     norm_rect_to_pb2 := fun r => r;
     ClassificationsProto := string;
     Classifications := string;
     create_from_pb2 := fun c => c;
     BaseOptions := string;
     BaseRest := string;
     base_options_to_pb2 :=
       fun path => {| use_stream_mode := false; base_rest := path |};
     base_options_of_model_path := fun path => path;
     ClassifierOptions := unit;
     ClassifierOptionsProto := unit;
     default_classifier_options := tt;
     classifier_options_to_pb2 := fun o => o;
     Callback := string |}.

#[local] Existing Instance framework.

Definition result_packet (label : string) (ts : Timestamp)
    : @Packet framework :=
  {| payload :=
       Some (ProtoPayload
               (ClassificationResultMessage
                  {| proto_classifications := [label] |}));
     timestamp := ts |}.

Definition empty_packet (ts : Timestamp) : @Packet framework :=
  {| payload := None; timestamp := ts |}.

Definition echo_runtime (label : string)
    (history : list (gmap string (@Packet framework)))
    (inputs : gmap string (@Packet framework))
    : option (gmap string (@Packet framework)) :=
  match inputs !! _IMAGE_IN_STREAM_NAME with
  | Some image_in =>
      Some {[ _CLASSIFICATION_RESULT_OUT_STREAM_NAME :=
                result_packet label (timestamp image_in);
              _IMAGE_OUT_STREAM_NAME := image_in ]}
  | None => None
  end.

Definition options (mode : RunningMode) (callback : option string)
    : @ImageClassifierOptions framework :=
  {| base_options := "model.tflite" : @BaseOptions framework;
     running_mode := mode;
     classifier_options := tt : @ClassifierOptions framework;
     result_callback := callback : option (@Callback framework) |}.

(** The task [create_from_options] returns for a consistent pair of mode
    and callback. *)
Definition task (mode : RunningMode) (callback : option string)
    : @ImageClassifier framework :=
  {| _graph_config :=
       generate_graph_config (task_info_of (options mode callback))
         (bool_decide (mode = LIVE_STREAM));
     _running_mode := mode;
     _packet_callback :=
       match callback with
       | Some _ => Some (packets_callback (options mode callback))
       | None => None
       end |}.

Definition runtime := echo_runtime "cat".

(** What the stub runtime's answer decodes to. *)
Definition cat_result : @ClassificationResult framework :=
  {| classifications := ["cat"] |}.

Definition image_task := task IMAGE None.
Definition video_task := task VIDEO None.
Definition live_options := options LIVE_STREAM (Some "on_result").
Definition live_task := task LIVE_STREAM (Some "on_result").

(** The state of a video task after one accepted frame at 100 ms. *)
Definition after_frame_100 : @TaskState framework :=
  snd (classify_for_video runtime video_task "frame" 100 None initial_state).

(** The state of a live-stream task after one accepted frame at 100 ms. *)
Definition after_live_frame_100 : @TaskState framework :=
  snd (classify_async live_task "frame" 100 None initial_state).

(** A delivery whose image output is empty, and one whose image output
    holds the frame sent at 100 ms (with a timestamp that is not a whole
    number of milliseconds, to exercise the division). *)
Definition dropped_delivery : gmap string (@Packet framework) :=
  {[ _CLASSIFICATION_RESULT_OUT_STREAM_NAME := result_packet "cat" (At 100000);
     _IMAGE_OUT_STREAM_NAME := empty_packet (At 100000) ]}.

Definition full_delivery : gmap string (@Packet framework) :=
  {[ _CLASSIFICATION_RESULT_OUT_STREAM_NAME := result_packet "cat" (At 100999);
     _IMAGE_OUT_STREAM_NAME := at_ (create_image "frame") 100999 ]}.

(** The message inside the stub runtime's answer. *)
Definition cat_proto : @ClassificationResultProto framework :=
  {| proto_classifications := ["cat"] |}.

(** Three deliveries in timestamp order: a frame, a dropped one, a frame. *)
Definition later_delivery : gmap string (@Packet framework) :=
  {[ _CLASSIFICATION_RESULT_OUT_STREAM_NAME := result_packet "dog" (At 300000);
     _IMAGE_OUT_STREAM_NAME := at_ (create_image "frame3") 300000 ]}.

(** The answer of the stub runtime to the frame sent at 100 ms. *)
Definition echoed_delivery : gmap string (@Packet framework) :=
  {[ _CLASSIFICATION_RESULT_OUT_STREAM_NAME := result_packet "cat" (At 100000);
     _IMAGE_OUT_STREAM_NAME := at_ (create_image "frame") 100000 ]}.

Definition deliveries : list (gmap string (@Packet framework)) :=
  [echoed_delivery; dropped_delivery; full_delivery; later_delivery].

(** [full_delivery] with a packet on a stream nobody declared. *)
Definition noisy_delivery : gmap string (@Packet framework) :=
  <[ "debug_out" := empty_packet Unset ]> full_delivery.

(** Frames a caller sends: the second repeats a timestamp, the fourth goes
    back in time. *)
Definition frames : list (@Image framework * Z * option NormalizedRect) :=
  [("a", 100, None); ("b", 100, None); ("c", 250, None); ("d", 200, None)].

(** Deliveries that lack one of the two output streams. *)
Definition no_image_delivery : gmap string (@Packet framework) :=
  {[ _CLASSIFICATION_RESULT_OUT_STREAM_NAME := result_packet "cat" (At 100000) ]}.

Definition no_result_delivery : gmap string (@Packet framework) :=
  {[ _IMAGE_OUT_STREAM_NAME := at_ (create_image "frame") 100000 ]}.

End Stub.

(** ** Properties *)

Section Properties.

Context `{F : Framework}.
Variable runner_process :
  list (gmap string Packet) -> gmap string Packet -> option (gmap string Packet).

(** *** The assembled packet sets *)

Lemma map_to_list_two_streams (p q : Packet) :
  map_to_list ({[ _IMAGE_IN_STREAM_NAME := p; _NORM_RECT_NAME := q ]}
               : gmap string Packet)
  = [(_IMAGE_IN_STREAM_NAME, p); (_NORM_RECT_NAME, q)].
Proof. reflexivity. Qed.

Lemma synchronization_key_timed_inputs image norm_rect timestamp_ms :
  synchronization_key (timed_inputs image norm_rect timestamp_ms)
  = Some (timestamp_ms * _MICRO_SECONDS_PER_MILLISECOND).
Proof.
  unfold synchronization_key, timed_inputs.
  rewrite map_to_list_two_streams. cbn [timestamp at_ forallb snd].
  by rewrite bool_decide_eq_true_2.
Qed.

(** *** Running the guard and the guarded methods *)

Lemma accept_rejects ts previous st :
  last_accepted st = Some previous -> ts <= previous ->
  accept ts st = (inl (UsageError NonIncreasingTimestamp), st).
Proof.
  intros Hlast Hle. unfold accept, bind, get. rewrite Hlast.
  destruct (Z.leb_spec ts previous) as [_ | Hgt]; [reflexivity | lia].
Qed.

Lemma accept_records ts st :
  match last_accepted st with
  | Some previous => previous < ts
  | None => True
  end ->
  accept ts st = (inr tt, record_timestamp ts st).
Proof.
  intros Hnew. unfold accept, bind, get.
  destruct (last_accepted st) as [previous |]; [| reflexivity].
  destruct (Z.leb_spec ts previous) as [Hle | _]; [lia | reflexivity].
Qed.

Lemma guard_timed_inputs_rejects image norm_rect t previous st :
  last_accepted st = Some previous ->
  t * _MICRO_SECONDS_PER_MILLISECOND <= previous ->
  guard_inputs (timed_inputs image norm_rect t) st
  = (inl (UsageError NonIncreasingTimestamp), st).
Proof.
  intros Hlast Hle. unfold guard_inputs.
  rewrite synchronization_key_timed_inputs. by eapply accept_rejects.
Qed.

Lemma guard_timed_inputs_records image norm_rect t st :
  match last_accepted st with
  | Some previous => previous < t * _MICRO_SECONDS_PER_MILLISECOND
  | None => True
  end ->
  guard_inputs (timed_inputs image norm_rect t) st
  = (inr tt, record_timestamp (t * _MICRO_SECONDS_PER_MILLISECOND) st).
Proof.
  intros Hnew. unfold guard_inputs.
  rewrite synchronization_key_timed_inputs. by apply accept_records.
Qed.

(** The guard either rejects and leaves the state alone, or records. *)
Lemma guard_timed_inputs_cases image norm_rect t st :
  guard_inputs (timed_inputs image norm_rect t) st
    = (inl (UsageError NonIncreasingTimestamp), st)
  \/ guard_inputs (timed_inputs image norm_rect t) st
    = (inr tt, record_timestamp (t * _MICRO_SECONDS_PER_MILLISECOND) st).
Proof.
  destruct (last_accepted st) as [previous |] eqn:Hlast.
  - destruct (Z_le_gt_dec (t * _MICRO_SECONDS_PER_MILLISECOND) previous).
    + left. by eapply guard_timed_inputs_rejects.
    + right. apply guard_timed_inputs_records. rewrite Hlast. lia.
  - right. apply guard_timed_inputs_records. by rewrite Hlast.
Qed.

Lemma invoke_state inputs st :
  snd (invoke runner_process inputs st) = push_inputs inputs st.
Proof.
  unfold invoke, bind, get, modify.
  by destruct (runner_process (submitted st) inputs).
Qed.


(** Decoding the output of a blocking request touches no state and raises
    no usage error. *)
Lemma classification_result_of_state output_packets st :
  snd (classification_result_of output_packets st) = st.
Proof.
  unfold classification_result_of, bind, getitem, lift, ret, raise.
  destruct (output_packets !! _) as [result_out |]; [| reflexivity].
  destruct (get_proto result_out) as [e | message]; [reflexivity |].
  by destruct (CopyFrom message).
Qed.


(** *** Timestamp ordering *)


(** *** Mode gating *)


(** *** Construction *)

Lemma create_from_options_cases (options : ImageClassifierOptions) :
  let graph_config :=
    generate_graph_config (task_info_of options)
      (bool_decide (running_mode options = LIVE_STREAM)) in
  create_from_options options
  = match result_callback options with
    | Some _ =>
        if decide (running_mode options = LIVE_STREAM)
        then inr {| _graph_config := graph_config;
                    _running_mode := running_mode options;
                    _packet_callback := Some (packets_callback options) |}
        else inl ConfigurationError
    | None =>
        if decide (running_mode options = LIVE_STREAM)
        then inl ConfigurationError
        else inr {| _graph_config := graph_config;
                    _running_mode := running_mode options;
                    _packet_callback := None |}
    end.
Proof.
  unfold create_from_options, BaseVisionTaskApi_init.
  destruct (result_callback options); by case_decide.
Qed.

(** C7. [create_from_options] fails with a configuration error, and returns
    no task, when the mode is live stream and no result callback is given,
    and when a result callback is given with another mode; whenever it
    returns a task, a callback is given exactly when the mode is live
    stream. *)
Theorem create_from_options_checks_callback (options : ImageClassifierOptions) :
  (running_mode options = LIVE_STREAM -> result_callback options = None ->
     create_from_options options = inl ConfigurationError)
  /\ (running_mode options <> LIVE_STREAM -> is_Some (result_callback options) ->
     create_from_options options = inl ConfigurationError)
  /\ (forall task : ImageClassifier,
        create_from_options options = inr task ->
        (is_Some (result_callback options)
         <-> running_mode options = LIVE_STREAM)).
Proof.
  rewrite create_from_options_cases. cbv zeta. split; [| split].
  - intros Hmode ->. by rewrite decide_True.
  - intros Hmode [callback ->]. by rewrite decide_False.
  - intros task Hcreate. split.
    + intros [callback Hcb]. rewrite Hcb in Hcreate. by case_decide.
    + intros Hmode. destruct (result_callback options); [by eexists |].
      by rewrite decide_True in Hcreate.
Qed.

(** C9. The graph configuration of a created task requests flow limiting
    exactly when the configured running mode is live stream; in image and
    video mode it does not. *)
Theorem flow_limiting_iff_live_stream (options : ImageClassifierOptions)
    (task : ImageClassifier) :
  create_from_options options = inr task ->
  _running_mode task = running_mode options
  /\ (enable_flow_limiting (_graph_config task) = true
      <-> running_mode options = LIVE_STREAM)
  /\ (running_mode options = IMAGE \/ running_mode options = VIDEO ->
      enable_flow_limiting (_graph_config task) = false).
Proof.
  rewrite create_from_options_cases. cbv zeta. intros Hcreate.
  assert (_running_mode task = running_mode options
          /\ enable_flow_limiting (_graph_config task)
             = bool_decide (running_mode options = LIVE_STREAM)) as [Hm Hf].
  { destruct (result_callback options); case_decide; try discriminate;
      by injection Hcreate as <-. }
  rewrite Hf. split; [exact Hm |]. split.
  - by rewrite bool_decide_eq_true.
  - intros [Hi | Hv]; apply bool_decide_eq_false_2; congruence.
Qed.

(** C10. [to_pb2] sets [use_stream_mode] to false exactly when the running
    mode is the image mode, to true in video and live-stream mode, keeps
    every other field of the base-options message as [base_options.to_pb2]
    made it, and passes the classifier options' message along. *)
Theorem to_pb2_use_stream_mode (options : ImageClassifierOptions) :
  (use_stream_mode (pb_base_options (to_pb2 options)) = false
   <-> running_mode options = IMAGE)
  /\ (running_mode options = VIDEO \/ running_mode options = LIVE_STREAM ->
      use_stream_mode (pb_base_options (to_pb2 options)) = true)
  /\ base_rest (pb_base_options (to_pb2 options))
     = base_rest (base_options_to_pb2 (base_options options))
  /\ pb_classifier_options (to_pb2 options)
     = classifier_options_to_pb2 (classifier_options options).
Proof.
  unfold to_pb2. cbn. repeat split.
  - by case_decide.
  - intros ->. by rewrite decide_True.
  - intros [-> | ->]; by rewrite decide_False.
Qed.

(** *** Delivery of asynchronous results *)

(** C2. When the image output packet of a delivery is empty, the dispatcher
    returns normally and changes nothing: no callback invocation is logged
    and no exception is raised.  The same holds for the delivery to any task
    [create_from_options] returns for these options. *)
Theorem empty_image_output_is_dropped (options : ImageClassifierOptions)
    (output_packets : gmap string Packet) (image_out : Packet)
    (st : TaskState) :
  output_packets !! _IMAGE_OUT_STREAM_NAME = Some image_out ->
  is_empty image_out = true ->
  packets_callback options output_packets st = (inr tt, st)
  /\ forall task : ImageClassifier,
       create_from_options options = inr task ->
       deliver task output_packets st = (inr tt, st).
Proof.
  intros Hlookup Hempty.
  assert (Hdrop : packets_callback options output_packets st = (inr tt, st)).
  { unfold packets_callback, bind, getitem. rewrite Hlookup. cbn.
    by rewrite Hempty. }
  split; [exact Hdrop |].
  intros task. rewrite create_from_options_cases. cbv zeta. unfold deliver.
  destruct (result_callback options); case_decide; try discriminate;
    by intros [= <-].
Qed.


(** *** Assembly of the input packet set *)




Lemma sent_by_unchanged {A} (m : M TaskState A) st :
  snd (m st) = st -> sent_by m st = [].
Proof. intros Hst. unfold sent_by. rewrite Hst. apply drop_all. Qed.

Lemma sent_by_pushed {A} (m : M TaskState A) st st0 inputs :
  submitted st0 = submitted st ->
  snd (m st) = push_inputs inputs st0 -> sent_by m st = [inputs].
Proof.
  intros Hsame Hst. unfold sent_by. rewrite Hst. cbn. rewrite Hsame.
  apply drop_app_length.
Qed.

(** What each entry point hands to the runtime. *)
Lemma classify_sends self image roi st :
  sent_by (classify runner_process self image roi) st
  = if decide (_running_mode self = IMAGE)
    then [untimed_inputs image (norm_rect_of roi)]
    else [].
Proof.
  unfold classify, _process_image_data. case_decide.
  - eapply sent_by_pushed; [reflexivity |]. unfold bind.
    pose proof (invoke_state (untimed_inputs image (norm_rect_of roi)) st)
      as Hstate.
    destruct (invoke _ _ _) as [[e | output_packets] st']; cbn in Hstate |- *;
      [exact Hstate |].
    by rewrite classification_result_of_state.
  - by apply sent_by_unchanged.
Qed.





(** *** The value of the blocking entry points *)

Lemma classification_result_of_returns output_packets st r st' :
  classification_result_of output_packets st = (inr r, st') ->
  st' = st
  /\ exists result_out classification_result_proto,
       output_packets !! _CLASSIFICATION_RESULT_OUT_STREAM_NAME = Some result_out
       /\ payload result_out
          = Some (ProtoPayload
                    (ClassificationResultMessage classification_result_proto))
       /\ r = {| classifications :=
                   map create_from_pb2
                     (proto_classifications classification_result_proto) |}.
Proof.
  unfold classification_result_of, bind, getitem, lift, ret, raise, get_proto.
  destruct (output_packets !! _) as [result_out |]; [| discriminate].
  destruct (payload result_out) as [[image | [rect | proto]] |] eqn:Hpayload;
    cbn; try discriminate.
  intros [= <- <-]. split; [reflexivity |]. by exists result_out, proto.
Qed.

Lemma invoke_returns inputs st output_packets st' :
  invoke runner_process inputs st = (inr output_packets, st') ->
  runner_process (submitted st) inputs = Some output_packets
  /\ st' = push_inputs inputs st.
Proof.
  unfold invoke, bind, get, modify, ret, raise.
  destruct (runner_process (submitted st) inputs); [| discriminate].
  by intros [= <- <-].
Qed.

(** C6, as the code has it.  A successful call to [classify] or
    [classify_for_video] sends exactly one packet set to the runtime and
    returns the classification result built from nothing but the list of
    category groups in the classification output packet of the runtime's
    answer to that set. *)
Theorem sync_result_is_classification_list (self : ImageClassifier)
    (st st' : TaskState) (image : Image) (timestamp_ms : Z)
    (roi : option NormalizedRect) (r : ClassificationResult) :
  (classify runner_process self image roi st = (inr r, st') ->
     let inputs := untimed_inputs image (norm_rect_of roi) in
     sent_by (classify runner_process self image roi) st = [inputs]
     /\ exists output_packets result_out classification_result_proto,
          runner_process (submitted st) inputs = Some output_packets
          /\ output_packets !! _CLASSIFICATION_RESULT_OUT_STREAM_NAME
             = Some result_out
          /\ payload result_out
             = Some (ProtoPayload
                       (ClassificationResultMessage classification_result_proto))
          /\ r = {| classifications :=
                      map create_from_pb2
                        (proto_classifications classification_result_proto) |})
  /\
  (classify_for_video runner_process self image timestamp_ms roi st
   = (inr r, st') ->
     let inputs := timed_inputs image (norm_rect_of roi) timestamp_ms in
     sent_by (classify_for_video runner_process self image timestamp_ms roi) st
     = [inputs]
     /\ exists output_packets result_out classification_result_proto,
          runner_process (submitted st) inputs = Some output_packets
          /\ output_packets !! _CLASSIFICATION_RESULT_OUT_STREAM_NAME
             = Some result_out
          /\ payload result_out
             = Some (ProtoPayload
                       (ClassificationResultMessage classification_result_proto))
          /\ r = {| classifications :=
                      map create_from_pb2
                        (proto_classifications classification_result_proto) |}).
Proof.
  split.
  - intros Hcall inputs.
    assert (Hmode : _running_mode self = IMAGE).
    { revert Hcall. unfold classify, _process_image_data.
      case_decide as Hm; [intros _; exact Hm | discriminate]. }
    split; [rewrite classify_sends; by rewrite decide_True |].
    revert Hcall. unfold classify, _process_image_data.
    rewrite decide_True by exact Hmode. unfold bind. fold inputs.
    destruct (invoke _ _ _) as [[e | output_packets] st1] eqn:Hinvoke;
      [discriminate |].
    apply invoke_returns in Hinvoke as [Hanswer _].
    intros (_ & result_out & proto & ? & ? & ?)%classification_result_of_returns.
    by exists output_packets, result_out, proto.
  - intros Hcall inputs.
    assert (Hmode : _running_mode self = VIDEO).
    { revert Hcall. unfold classify_for_video, _process_video_data.
      case_decide as Hm; [intros _; exact Hm | discriminate]. }
    revert Hcall. unfold sent_by, classify_for_video, _process_video_data.
    rewrite decide_True by exact Hmode. unfold bind at 1 2 3 4. fold inputs.
    destruct (guard_timed_inputs_cases image (norm_rect_of roi) timestamp_ms st)
      as [Hguard | Hguard]; fold inputs in Hguard; rewrite Hguard;
      [discriminate |].
    destruct (invoke _ _ _) as [[e | output_packets] st1] eqn:Hinvoke;
      [discriminate |].
    apply invoke_returns in Hinvoke as [Hanswer ->].
    intros Hdecode. rewrite Hdecode.
    apply classification_result_of_returns in Hdecode
      as (-> & result_out & proto & ? & ? & ?).
    cbn [snd submitted push_inputs record_timestamp].
    split; [apply drop_app_length |].
    exists output_packets, result_out, proto.
    split; [exact Hanswer |]. repeat split; assumption.
Qed.

End Properties.

(** ** The properties on the stub implementation *)

Section OnStub.

Local Existing Instance Stub.framework.
Local Open Scope string_scope.


Lemma empty_image_output_is_dropped_witness :
  Stub.dropped_delivery !! _IMAGE_OUT_STREAM_NAME
  = Some (Stub.empty_packet (At 100000))
  /\ is_empty (Stub.empty_packet (At 100000)) = true
  /\ packets_callback Stub.live_options Stub.dropped_delivery
       Stub.after_live_frame_100
     = (inr tt, Stub.after_live_frame_100)
  /\ deliver Stub.live_task Stub.dropped_delivery Stub.after_live_frame_100
     = (inr tt, Stub.after_live_frame_100).
Proof.
  assert (Hlookup : Stub.dropped_delivery !! _IMAGE_OUT_STREAM_NAME
                    = Some (Stub.empty_packet (At 100000)))
    by (vm_compute; reflexivity).
  assert (Hempty : is_empty (Stub.empty_packet (At 100000)) = true)
    by reflexivity.
  split; [exact Hlookup |]. split; [exact Hempty |].
  destruct (empty_image_output_is_dropped Stub.live_options
              Stub.dropped_delivery (Stub.empty_packet (At 100000))
              Stub.after_live_frame_100 Hlookup Hempty) as [Hdrop Hdeliver].
  split; [exact Hdrop |]. apply Hdeliver. reflexivity.
Defined.


Lemma flow_limiting_iff_live_stream_witness :
  create_from_options Stub.live_options = inr Stub.live_task
  /\ enable_flow_limiting (_graph_config Stub.live_task) = true
  /\ create_from_options (Stub.options VIDEO None) = inr Stub.video_task
  /\ enable_flow_limiting (_graph_config Stub.video_task) = false.
Proof.
  assert (Hlive : create_from_options Stub.live_options = inr Stub.live_task)
    by reflexivity.
  assert (Hvideo : create_from_options (Stub.options VIDEO None)
                   = inr Stub.video_task)
    by reflexivity.
  split; [exact Hlive |]. split; [| split; [exact Hvideo |]].
  - destruct (flow_limiting_iff_live_stream Stub.live_options Stub.live_task
                Hlive) as (_ & Hiff & _).
    apply Hiff. reflexivity.
  - destruct (flow_limiting_iff_live_stream (Stub.options VIDEO None)
                Stub.video_task Hvideo) as (_ & _ & Hoff).
    apply Hoff. right. reflexivity.
Defined.

(** C6 as stated fails: two calls with different frames and timestamps
    return the same value, so the value holds neither the echoed image nor
    the timestamp. *)
Lemma sync_result_omits_image_and_timestamp :
  ~ @result_holds_image_and_timestamp Stub.framework Stub.runtime.
Proof.
  intros (image_of & timestamp_ms_of & Hclaim).
  pose (call_a := classify_for_video Stub.runtime Stub.video_task
                    "frame_a" 100 None initial_state).
  pose (call_b := classify_for_video Stub.runtime Stub.video_task
                    "frame_b" 200 None initial_state).
  assert (Ha : call_a = (inr Stub.cat_result, snd call_a))
    by (vm_compute; reflexivity).
  assert (Hb : call_b = (inr Stub.cat_result, snd call_b))
    by (vm_compute; reflexivity).
  destruct (Hclaim Stub.video_task initial_state (snd call_a) "frame_a" 100
              None Stub.cat_result) as [_ Hvideo_a].
  destruct (Hclaim Stub.video_task initial_state (snd call_b) "frame_b" 200
              None Stub.cat_result) as [_ Hvideo_b].
  destruct (Hvideo_a Ha) as [Himage_a _].
  destruct (Hvideo_b Hb) as [Himage_b _].
  rewrite Himage_a in Himage_b. discriminate Himage_b.
Qed.

Lemma sync_result_is_classification_list_witness :
  classify_for_video Stub.runtime Stub.video_task "frame" 100 None initial_state
  = (inr Stub.cat_result, Stub.after_frame_100)
  /\ sent_by (classify_for_video Stub.runtime Stub.video_task "frame" 100 None)
       initial_state
     = [timed_inputs "frame" _build_full_image_norm_rect 100].
Proof.
  assert (Hcall : classify_for_video Stub.runtime Stub.video_task "frame" 100
                    None initial_state
                  = (inr Stub.cat_result, Stub.after_frame_100))
    by (vm_compute; reflexivity).
  split; [exact Hcall |].
  destruct (sync_result_is_classification_list Stub.runtime Stub.video_task
              initial_state Stub.after_frame_100 "frame" 100 None
              Stub.cat_result) as [_ Hvideo].
  destruct (Hvideo Hcall) as [Hsent _]. exact Hsent.
Defined.

End OnStub.

(** ** Further properties of the dispatcher *)

Section DispatcherProperties.

Context `{F : Framework}.

(** One run of the dispatcher is its decision applied to the state. *)
Lemma packets_callback_decision options (output_packets : gmap string Packet) st :
  packets_callback options output_packets st
  = match callback_decision options output_packets with
    | inl e => (inl e, st)
    | inr None => (inr tt, st)
    | inr (Some call) => (inr tt, log_call call st)
    end.
Proof.
  unfold packets_callback, callback_decision, bind, getitem, lift, ret, raise,
    call_result_callback, modify.
  destruct (output_packets !! _IMAGE_OUT_STREAM_NAME) as [image_out |];
    [| reflexivity].
  destruct (is_empty image_out); [reflexivity |].
  destruct (output_packets !! _CLASSIFICATION_RESULT_OUT_STREAM_NAME)
    as [result_out |]; [| reflexivity].
  destruct (get_proto result_out) as [e | message]; [reflexivity |].
  destruct (CopyFrom message) as [e | proto]; [reflexivity |].
  destruct (get_image image_out) as [e | image]; [reflexivity |].
  destruct (result_callback options); reflexivity.
Qed.

Lemma callback_decision_call options (output_packets : gmap string Packet) call :
  callback_decision options output_packets = inr (Some call) ->
  exists image_out result_out classification_result_proto image,
    output_packets !! _IMAGE_OUT_STREAM_NAME = Some image_out
    /\ is_empty image_out = false
    /\ output_packets !! _CLASSIFICATION_RESULT_OUT_STREAM_NAME = Some result_out
    /\ get_proto result_out
       = inr (ClassificationResultMessage classification_result_proto)
    /\ get_image image_out = inr image
    /\ result_callback options = Some (callee call)
    /\ call_result call
       = decode_classification_result classification_result_proto
    /\ call_image call = image
    /\ call_timestamp_ms call = value (timestamp image_out) / 1000.
Proof.
  unfold callback_decision.
  destruct (output_packets !! _IMAGE_OUT_STREAM_NAME) as [image_out |];
    [| discriminate].
  destruct (is_empty image_out) eqn:Hempty; [discriminate |].
  destruct (output_packets !! _CLASSIFICATION_RESULT_OUT_STREAM_NAME)
    as [result_out |]; [| discriminate].
  destruct (get_proto result_out) as [e | message] eqn:Hproto; [discriminate |].
  destruct message as [rect | proto]; cbn; [discriminate |].
  destruct (get_image image_out) as [e | image] eqn:Himage; [discriminate |].
  destruct (result_callback options) as [callback |]; [| discriminate].
  intros [= <-]. exists image_out, result_out, proto, image.
  repeat split; reflexivity || assumption.
Qed.

(** A state never equals itself with one more logged invocation. *)
Lemma log_call_grows (calls : list CallbackCall) call :
  calls <> calls ++ [call].
Proof.
  intros Heq. apply (f_equal length) in Heq.
  rewrite length_app in Heq. cbn in Heq. lia.
Qed.

(** If a run logged exactly [call], that is the decision it took. *)
Lemma logged_call_decision options (output_packets : gmap string Packet) st call :
  callback_calls (snd (packets_callback options output_packets st))
  = callback_calls st ++ [call] ->
  callback_decision options output_packets = inr (Some call).
Proof.
  rewrite packets_callback_decision.
  destruct (callback_decision options output_packets) as [e | [call' |]]; cbn.
  - intros Heq. by apply log_call_grows in Heq.
  - intros Heq%app_inv_head. by injection Heq as ->.
  - intros Heq. by apply log_call_grows in Heq.
Qed.

(** X1. A delivery that lacks the image output raises [KeyError] for that
    stream; one whose image output is not empty but that lacks the
    classification output raises [KeyError] for that one.  Either way the
    state is as before: the user callback is not invoked. *)
Theorem packets_callback_missing_stream options
    (output_packets : gmap string Packet) (st : TaskState) :
  (output_packets !! _IMAGE_OUT_STREAM_NAME = None ->
     packets_callback options output_packets st
     = (inl (KeyError "image_out"), st))
  /\ (forall image_out,
        output_packets !! _IMAGE_OUT_STREAM_NAME = Some image_out ->
        is_empty image_out = false ->
        output_packets !! _CLASSIFICATION_RESULT_OUT_STREAM_NAME = None ->
        packets_callback options output_packets st
        = (inl (KeyError "classification_result_out"), st)).
Proof.
  rewrite packets_callback_decision. unfold callback_decision. split.
  - by intros ->.
  - intros image_out -> -> ->. reflexivity.
Qed.


(** X3. The dispatcher reads the two output streams and nothing else: on two
    deliveries that agree on the image output and on the classification
    output it does the same, whatever else they hold. *)
Theorem packets_callback_reads_two_streams options
    (output_packets1 output_packets2 : gmap string Packet) (st : TaskState) :
  output_packets1 !! _IMAGE_OUT_STREAM_NAME
  = output_packets2 !! _IMAGE_OUT_STREAM_NAME ->
  output_packets1 !! _CLASSIFICATION_RESULT_OUT_STREAM_NAME
  = output_packets2 !! _CLASSIFICATION_RESULT_OUT_STREAM_NAME ->
  packets_callback options output_packets1 st
  = packets_callback options output_packets2 st.
Proof.
  intros Himage Hresult. rewrite !packets_callback_decision.
  unfold callback_decision. by rewrite Himage, Hresult.
Qed.

(** X4. Milliseconds survive the trip through the runtime: when the image
    output of a delivery is the image packet that [classify_for_video] or
    [classify_async] assembled for the image and the timestamp [t], and the
    classification output decodes, the callback is invoked once with that
    image and with [t] itself, for every integer [t]. *)
Theorem echoed_frame_round_trip options (callback : Callback)
    (image : Image) (norm_rect : NormalizedRect) (t : Z)
    (output_packets : gmap string Packet) (result_out : Packet)
    (classification_result_proto : ClassificationResultProto)
    (st : TaskState) :
  result_callback options = Some callback ->
  output_packets !! _IMAGE_OUT_STREAM_NAME
  = timed_inputs image norm_rect t !! _IMAGE_IN_STREAM_NAME ->
  output_packets !! _CLASSIFICATION_RESULT_OUT_STREAM_NAME = Some result_out ->
  get_proto result_out
  = inr (ClassificationResultMessage classification_result_proto) ->
  packets_callback options output_packets st
  = (inr tt,
     log_call
       {| callee := callback;
          call_result :=
            {| classifications :=
                 map create_from_pb2
                   (proto_classifications classification_result_proto) |};
          call_image := image;
          call_timestamp_ms := t |}
       st).
Proof.
  intros Hcb Himage Hresult Hproto.
  rewrite packets_callback_decision. unfold callback_decision.
  rewrite Himage. unfold timed_inputs. rewrite lookup_insert_eq. cbn.
  rewrite Hresult, Hproto. cbn. rewrite Hcb.
  unfold _MICRO_SECONDS_PER_MILLISECOND. by rewrite Z.div_mul.
Qed.

(** X5. The milliseconds handed to the callback are the floor of the image
    packet's microseconds over 1000, also for negative timestamps and for
    ones that are no whole number of milliseconds: whenever a run invokes
    the callback, [1000 * ms <= us < 1000 * ms + 1000]. *)
Theorem delivered_timestamp_is_floor options
    (output_packets : gmap string Packet) (image_out : Packet)
    (st : TaskState) (call : CallbackCall) :
  output_packets !! _IMAGE_OUT_STREAM_NAME = Some image_out ->
  callback_calls (snd (packets_callback options output_packets st))
  = callback_calls st ++ [call] ->
  1000 * call_timestamp_ms call <= value (timestamp image_out)
  /\ value (timestamp image_out) < 1000 * call_timestamp_ms call + 1000.
Proof.
  intros Himage Hlogged%logged_call_decision.
  apply callback_decision_call in Hlogged
    as (image_out' & _ & _ & _ & Himage' & _ & _ & _ & _ & _ & _ & _ & Hms).
  rewrite Himage in Himage'. injection Himage' as <-. rewrite Hms.
  pose proof (Z.div_mod (value (timestamp image_out)) 1000 ltac:(lia)) as Hdiv.
  pose proof (Z.mod_pos_bound (value (timestamp image_out)) 1000 ltac:(lia)).
  lia.
Qed.

(** X6. When the asynchronous path hands a result to the callback, it is
    the result the blocking entry points would return for the same output
    packets: both decode the classification output the same way. *)
Theorem callback_result_is_sync_result options
    (output_packets : gmap string Packet) (st : TaskState)
    (call : CallbackCall) :
  callback_calls (snd (packets_callback options output_packets st))
  = callback_calls st ++ [call] ->
  classification_result_of output_packets st = (inr (call_result call), st).
Proof.
  intros Hlogged%logged_call_decision.
  apply callback_decision_call in Hlogged
    as (_ & result_out & proto & _ & _ & _ & Hresult & Hproto & _ & _ & Hdecoded
        & _ & _).
  rewrite Hdecoded.
  unfold classification_result_of, bind, getitem, lift, ret.
  rewrite Hresult. cbn. by rewrite Hproto.
Qed.

(** X7. The blocking entry points decode the classification output and
    nothing else (lines 199-207 and 244-252): without that stream the
    decoding raises [KeyError]; two output packet sets that agree on it
    decode alike, whatever their image output is; and decoding changes no
    state. *)
Theorem classification_result_of_reads_one_stream
    (output_packets : gmap string Packet) (st : TaskState) :
  (output_packets !! _CLASSIFICATION_RESULT_OUT_STREAM_NAME = None ->
     classification_result_of output_packets st
     = (inl (KeyError "classification_result_out"), st))
  /\ (forall other_packets : gmap string Packet,
        other_packets !! _CLASSIFICATION_RESULT_OUT_STREAM_NAME
        = output_packets !! _CLASSIFICATION_RESULT_OUT_STREAM_NAME ->
        classification_result_of other_packets st
        = classification_result_of output_packets st)
  /\ snd (classification_result_of output_packets st) = st.
Proof.
  split; [| split].
  - intros Hmissing. unfold classification_result_of, bind, getitem.
    by rewrite Hmissing.
  - intros other_packets Hsame. unfold classification_result_of, bind, getitem.
    by rewrite Hsame.
  - unfold classification_result_of, bind, getitem, lift, ret, raise.
    destruct (output_packets !! _) as [result_out |]; [| reflexivity].
    destruct (get_proto result_out) as [e | message]; [reflexivity |].
    by destruct (CopyFrom message).
Qed.

(** *** Runs of deliveries *)

Lemma deliver_all_cons options (output_packets : gmap string Packet)
    deliveries st :
  deliver_all options (output_packets :: deliveries) st
  = deliver_all options deliveries
      (snd (packets_callback options output_packets st)).
Proof. reflexivity. Qed.

Lemma packets_callback_state options (output_packets : gmap string Packet) st :
  snd (packets_callback options output_packets st)
  = match delivered_call options output_packets with
    | Some call => log_call call st
    | None => st
    end.
Proof.
  rewrite packets_callback_decision. unfold delivered_call.
  by destruct (callback_decision options output_packets) as [e | [call |]].
Qed.

Lemma deliver_all_calls options (deliveries : list (gmap string Packet)) st :
  deliver_all options deliveries st
  = {| last_accepted := last_accepted st;
       submitted := submitted st;
       callback_calls :=
         callback_calls st ++ omap (delivered_call options) deliveries |}.
Proof.
  revert st. induction deliveries as [| output_packets deliveries IH];
    intros st.
  - cbn. rewrite app_nil_r. by destruct st.
  - rewrite deliver_all_cons, IH, packets_callback_state. cbn [omap list_omap].
    destruct (delivered_call options output_packets) as [call |];
      [| reflexivity].
    cbn. by rewrite <- app_assoc.
Qed.



Lemma delivered_call_timestamp options (output_packets : gmap string Packet)
    call :
  delivered_call options output_packets = Some call ->
  exists us,
    image_out_us output_packets = Some us
    /\ call_timestamp_ms call = us / 1000.
Proof.
  unfold delivered_call.
  destruct (callback_decision options output_packets) as [e | [call' |]]
    eqn:Hdecision; try discriminate.
  intros [= ->].
  apply callback_decision_call in Hdecision
    as (image_out & _ & _ & _ & Himage & _ & _ & _ & _ & _ & _ & _ & Hms).
  exists (value (timestamp image_out)). split; [| exact Hms].
  unfold image_out_us. by rewrite Himage.
Qed.

Lemma delivered_timestamps_come_from_packets options
    (deliveries : list (gmap string Packet)) ms :
  ms ∈ call_timestamp_ms <$> omap (delivered_call options) deliveries ->
  exists us, us ∈ omap image_out_us deliveries /\ ms = us / 1000.
Proof.
  intros (call & -> & (output_packets & Hin & Hcall)%list_elem_of_omap)
    %list_elem_of_fmap.
  apply delivered_call_timestamp in Hcall as (us & Hus & Hms).
  exists us. split; [| exact Hms].
  apply list_elem_of_omap. by exists output_packets.
Qed.

Lemma delivered_timestamps_sorted options
    (deliveries : list (gmap string Packet)) :
  StronglySorted Z.le (omap image_out_us deliveries) ->
  StronglySorted Z.le
    (call_timestamp_ms <$> omap (delivered_call options) deliveries).
Proof.
  induction deliveries as [| output_packets deliveries IH];
    [constructor |].
  cbn [omap list_omap]. intros Hsorted.
  assert (Hrest : StronglySorted Z.le (omap image_out_us deliveries)).
  { destruct (image_out_us output_packets); [| exact Hsorted].
    by apply StronglySorted_inv in Hsorted as [? _]. }
  destruct (delivered_call options output_packets) as [call |] eqn:Hcall;
    [| by apply IH].
  cbn. constructor; [by apply IH |].
  apply delivered_call_timestamp in Hcall as (us & Hus & ->).
  rewrite Hus in Hsorted.
  apply StronglySorted_inv in Hsorted as [_ Hle].
  apply Forall_forall. intros ms Hms.
  apply delivered_timestamps_come_from_packets in Hms as (us' & Hus' & ->).
  apply Z.div_le_mono; [lia |].
  rewrite Forall_forall in Hle. by apply Hle.
Qed.

(** X9. The dispatcher keeps the order of the runtime: when the image
    outputs of a run of deliveries come with non-decreasing timestamps, the
    timestamps of the invocations the run adds to the log are
    non-decreasing too. *)
Theorem callbacks_keep_timestamp_order options
    (deliveries : list (gmap string Packet)) (st : TaskState) :
  Sorted Z.le (omap image_out_us deliveries) ->
  Sorted Z.le
    (call_timestamp_ms
       <$> drop (length (callback_calls st))
             (callback_calls (deliver_all options deliveries st))).
Proof.
  intros Hsorted. rewrite deliver_all_calls. cbn [callback_calls].
  rewrite drop_app_length.
  apply StronglySorted_Sorted, delivered_timestamps_sorted.
  apply Sorted_StronglySorted; [| exact Hsorted].
  intros x y z. apply Z.le_trans.
Qed.

End DispatcherProperties.

(** ** Further properties of construction and packet assembly *)

Section WiringProperties.

Context `{F : Framework}.

Lemma declared_output_names options :
  stream_name <$> output_streams (task_info_of options)
  = [_CLASSIFICATION_RESULT_OUT_STREAM_NAME; _IMAGE_OUT_STREAM_NAME].
Proof. reflexivity. Qed.

Lemma declared_input_names options :
  stream_name <$> input_streams (task_info_of options)
  = [_IMAGE_IN_STREAM_NAME; _NORM_RECT_NAME].
Proof. reflexivity. Qed.

(** X10. The output streams that [create_from_options] declares in the task
    description are all the dispatcher and the blocking entry points read:
    on an output packet set that has a packet for every declared output
    stream, neither raises [KeyError]. *)
Theorem declared_outputs_suffice options (output_packets : gmap string Packet)
    (st : TaskState) :
  (forall tagged,
     tagged ∈ output_streams (task_info_of options) ->
     is_Some (output_packets !! stream_name tagged)) ->
  forall key,
    fst (packets_callback options output_packets st) <> inl (KeyError key)
    /\ fst (classification_result_of output_packets st) <> inl (KeyError key).
Proof.
  intros Hdeclared key.
  assert (Hall : Forall (fun name => is_Some (output_packets !! name))
                   (stream_name <$> output_streams (task_info_of options))).
  { apply Forall_fmap, Forall_forall. exact Hdeclared. }
  rewrite declared_output_names in Hall.
  apply Forall_cons in Hall as [[result_out Hresult] Hall].
  apply Forall_cons in Hall as [[image_out Himage] _].
  split.
  - rewrite packets_callback_decision. unfold callback_decision.
    rewrite Himage, Hresult.
    destruct (is_empty image_out); [discriminate |].
    unfold get_proto, get_image.
    destruct (payload result_out) as [[? | [? | ?]] |]; cbn; try discriminate.
    destruct (payload image_out) as [[? | ?] |]; cbn; try discriminate.
    destruct (result_callback options); discriminate.
  - unfold classification_result_of, bind, getitem, lift, ret, get_proto.
    rewrite Hresult. cbn.
    destruct (payload result_out) as [[? | [? | ?]] |]; cbn; discriminate.
Qed.

(** X11. The packet sets the three entry points assemble have exactly the
    input streams that [create_from_options] declares in the task
    description as their keys. *)
Theorem inputs_match_declared_streams options (image : Image)
    (norm_rect : NormalizedRect) (timestamp_ms : Z) :
  dom (untimed_inputs image norm_rect)
  = list_to_set (stream_name <$> input_streams (task_info_of options))
  /\ dom (timed_inputs image norm_rect timestamp_ms)
     = list_to_set (stream_name <$> input_streams (task_info_of options)).
Proof.
  rewrite declared_input_names. unfold untimed_inputs, timed_inputs.
  rewrite !dom_insert_L, !dom_singleton_L. cbn [list_to_set].
  split; by rewrite union_empty_r_L.
Qed.

(** X12. The packet set of the two timestamped entry points is the packet
    set of [classify] with every packet moved to [timestamp_ms * 1000]:
    same streams, same payloads, only the timestamps differ. *)
Theorem timed_inputs_are_untimed_inputs_at (image : Image)
    (norm_rect : NormalizedRect) (timestamp_ms : Z) :
  timed_inputs image norm_rect timestamp_ms
  = (fun p => at_ p (timestamp_ms * 1000)) <$> untimed_inputs image norm_rect.
Proof.
  unfold timed_inputs, untimed_inputs.
  by rewrite !fmap_insert, map_fmap_singleton.
Qed.

Lemma create_from_options_stores options (task : ImageClassifier) :
  create_from_options options = inr task ->
  _graph_config task
  = generate_graph_config (task_info_of options)
      (bool_decide (running_mode options = LIVE_STREAM))
  /\ _running_mode task = running_mode options
  /\ _packet_callback task
     = match result_callback options with
       | Some _ => Some (packets_callback options)
       | None => None
       end.
Proof.
  unfold create_from_options, BaseVisionTaskApi_init.
  case_decide; destruct (result_callback options);
    intros [= <-] || discriminate; by repeat split.
Qed.

(** X13. The graph configuration of a created task carries the options it
    was created from, and its two mode flags are consistent: a graph for
    which flow limiting is requested has [use_stream_mode] set in its
    options message, and the flags differ only in video mode, where
    [use_stream_mode] is set and flow limiting is not requested. *)
Theorem flow_limited_graph_is_in_stream_mode options (task : ImageClassifier) :
  create_from_options options = inr task ->
  let graph_options :=
    to_pb2 (task_options (graph_source (_graph_config task))) in
  task_options (graph_source (_graph_config task)) = options
  /\ (enable_flow_limiting (_graph_config task) = true ->
      use_stream_mode (pb_base_options graph_options) = true)
  /\ (enable_flow_limiting (_graph_config task)
      <> use_stream_mode (pb_base_options graph_options)
      <-> running_mode options = VIDEO).
Proof.
  intros (Hconfig & _ & _)%create_from_options_stores. rewrite Hconfig. cbn.
  destruct (running_mode options); cbn; repeat split; try discriminate;
    try congruence; intros Hne; by destruct Hne.
Qed.

(** X14. The options message tells the image mode from the other two and
    nothing more: for options with the same base and classifier options,
    [to_pb2] gives the same message exactly when both or neither are in
    image mode.  Video and live-stream options yield the same message, and
    the result callback never shows in it. *)
Theorem to_pb2_tells_image_mode_only (options1 options2 : ImageClassifierOptions) :
  base_options options1 = base_options options2 ->
  classifier_options options1 = classifier_options options2 ->
  (to_pb2 options1 = to_pb2 options2
   <-> (running_mode options1 = IMAGE <-> running_mode options2 = IMAGE)).
Proof.
  intros Hbase Hclassifier. unfold to_pb2. rewrite Hbase, Hclassifier. split.
  - intros Heq. injection Heq as Hflag.
    destruct (running_mode options1), (running_mode options2);
      cbn in Hflag; try discriminate; split; congruence.
  - intros Hiff.
    destruct (running_mode options1), (running_mode options2); cbn;
      try reflexivity; destruct Hiff as [H1 H2];
      (discriminate (H1 eq_refl) || discriminate (H2 eq_refl)).
Qed.

(** X15. A task that [create_from_model_path] returns is in image mode, has
    no dispatcher registered and requests no flow limiting; its options
    hold the base options of the model path, the default classifier options
    and no callback, and their message has [use_stream_mode] off. *)
Theorem create_from_model_path_is_image_mode (model_path : string)
    (task : ImageClassifier) :
  create_from_model_path model_path = inr task ->
  let options := task_options (graph_source (_graph_config task)) in
  _running_mode task = IMAGE
  /\ _packet_callback task = None
  /\ enable_flow_limiting (_graph_config task) = false
  /\ base_options options = base_options_of_model_path model_path
  /\ classifier_options options = default_classifier_options
  /\ result_callback options = None
  /\ use_stream_mode (pb_base_options (to_pb2 options)) = false.
Proof.
  unfold create_from_model_path.
  intros (Hconfig & Hmode & Hcallback)%create_from_options_stores.
  rewrite Hconfig, Hmode, Hcallback. cbn. by repeat split.
Qed.


End WiringProperties.

(** ** The order of the packet sets sent by [classify_async] *)

Section SendingProperties.

Context `{F : Framework}.

Lemma StronglySorted_snoc_lt (keys : list Z) (key : Z) :
  StronglySorted Z.lt keys ->
  (forall k, k ∈ keys -> k < key) ->
  StronglySorted Z.lt (keys ++ [key]).
Proof.
  induction keys as [| k keys IH]; intros Hsorted Hbelow; cbn.
  - repeat constructor.
  - apply StronglySorted_inv in Hsorted as [Hsorted Hk]. constructor.
    + apply IH; [exact Hsorted |]. intros k' Hk'. apply Hbelow. by right.
    + apply Forall_app. split; [exact Hk |].
      constructor; [| constructor]. apply Hbelow. by left.
Qed.

Lemma submitted_key_timed_inputs (image : Image) norm_rect t :
  omap synchronization_key [timed_inputs image norm_rect t]
  = [t * _MICRO_SECONDS_PER_MILLISECOND].
Proof.
  cbn [omap list_omap]. by rewrite synchronization_key_timed_inputs.
Qed.

Lemma classify_async_cases self image t roi st :
  snd (classify_async self image t roi st) = st
  \/ (snd (classify_async self image t roi st)
      = push_inputs (timed_inputs image (norm_rect_of roi) t)
          (record_timestamp (t * _MICRO_SECONDS_PER_MILLISECOND) st)
      /\ match last_accepted st with
         | Some previous => previous < t * _MICRO_SECONDS_PER_MILLISECOND
         | None => True
         end).
Proof.
  unfold classify_async, _send_live_stream_data, guard_inputs, bind.
  case_decide; [| by left].
  rewrite synchronization_key_timed_inputs. unfold accept, bind, get.
  destruct (last_accepted st) as [previous |]; [| by right].
  destruct (Z.leb_spec (t * _MICRO_SECONDS_PER_MILLISECOND) previous);
    [by left | by right].
Qed.

Lemma classify_async_keeps_guard_covers self image t roi st :
  guard_covers st -> guard_covers (snd (classify_async self image t roi st)).
Proof.
  intros [Hsorted Hcovered].
  destruct (classify_async_cases self image t roi st) as [-> | [-> Hnew]];
    [by split |].
  unfold guard_covers, submitted_keys.
  cbn [submitted last_accepted push_inputs record_timestamp].
  rewrite omap_app, submitted_key_timed_inputs.
  split.
  - apply StronglySorted_snoc_lt; [exact Hsorted |].
    intros k (previous & Hlast & Hle)%Hcovered. rewrite Hlast in Hnew. lia.
  - intros k [Hk | ->%list_elem_of_singleton]%elem_of_app.
    + apply Hcovered in Hk as (previous & Hlast & Hle). rewrite Hlast in Hnew.
      eexists. split; [reflexivity | lia].
    + eexists. split; [reflexivity | lia].
Qed.

Lemma send_all_keeps_guard_covers self frames st :
  guard_covers st -> guard_covers (send_all self frames st).
Proof.
  revert st. induction frames as [| frame frames IH]; intros st Hst;
    [exact Hst |].
  apply IH. by apply classify_async_keeps_guard_covers.
Qed.

(** X17. On the base class as modelled from the specification, whatever
    frames a caller sends through [classify_async], in whatever order and
    to a task of whatever mode, the packet sets that reach the runtime carry
    strictly increasing timestamps: frames that repeat a timestamp or go
    back in time are left out. *)
Theorem runtime_sees_increasing_timestamps (self : ImageClassifier)
    (frames : list (Image * Z * option NormalizedRect)) :
  Sorted Z.lt (submitted_keys (send_all self frames initial_state)).
Proof.
  apply StronglySorted_Sorted.
  apply (send_all_keeps_guard_covers self frames initial_state).
  split; [constructor |]. intros k Hk. by apply elem_of_nil in Hk.
Qed.





End SendingProperties.

(** ** The further properties on the stub implementation *)

Section FurtherOnStub.

Local Existing Instance Stub.framework.
Local Open Scope string_scope.

Lemma packets_callback_reads_two_streams_witness :
  Stub.noisy_delivery !! _IMAGE_OUT_STREAM_NAME
  = Stub.full_delivery !! _IMAGE_OUT_STREAM_NAME
  /\ Stub.noisy_delivery !! _CLASSIFICATION_RESULT_OUT_STREAM_NAME
     = Stub.full_delivery !! _CLASSIFICATION_RESULT_OUT_STREAM_NAME
  /\ Stub.noisy_delivery <> Stub.full_delivery
  /\ packets_callback Stub.live_options Stub.noisy_delivery initial_state
     = packets_callback Stub.live_options Stub.full_delivery initial_state.
Proof.
  assert (Himage : Stub.noisy_delivery !! _IMAGE_OUT_STREAM_NAME
                   = Stub.full_delivery !! _IMAGE_OUT_STREAM_NAME)
    by (vm_compute; reflexivity).
  assert (Hresult :
    Stub.noisy_delivery !! _CLASSIFICATION_RESULT_OUT_STREAM_NAME
    = Stub.full_delivery !! _CLASSIFICATION_RESULT_OUT_STREAM_NAME)
    by (vm_compute; reflexivity).
  split; [exact Himage |]. split; [exact Hresult |]. split.
  - intros Heq. apply (f_equal (fun m => m !! "debug_out")) in Heq.
    vm_compute in Heq. discriminate Heq.
  - exact (packets_callback_reads_two_streams Stub.live_options
             Stub.noisy_delivery Stub.full_delivery initial_state
             Himage Hresult).
Defined.

Lemma echoed_frame_round_trip_witness :
  result_callback Stub.live_options = Some "on_result"
  /\ Stub.echoed_delivery !! _IMAGE_OUT_STREAM_NAME
     = timed_inputs "frame" _build_full_image_norm_rect 100
         !! _IMAGE_IN_STREAM_NAME
  /\ Stub.echoed_delivery !! _CLASSIFICATION_RESULT_OUT_STREAM_NAME
     = Some (Stub.result_packet "cat" (At 100000))
  /\ callback_calls
       (snd (packets_callback Stub.live_options Stub.echoed_delivery
               Stub.after_live_frame_100))
     = [ {| callee := "on_result";
            call_result := Stub.cat_result;
            call_image := "frame";
            call_timestamp_ms := 100 |} ].
Proof.
  assert (Himage : Stub.echoed_delivery !! _IMAGE_OUT_STREAM_NAME
                   = timed_inputs "frame" _build_full_image_norm_rect 100
                       !! _IMAGE_IN_STREAM_NAME)
    by (vm_compute; reflexivity).
  assert (Hresult :
    Stub.echoed_delivery !! _CLASSIFICATION_RESULT_OUT_STREAM_NAME
    = Some (Stub.result_packet "cat" (At 100000)))
    by (vm_compute; reflexivity).
  split; [reflexivity |]. split; [exact Himage |]. split; [exact Hresult |].
  rewrite (echoed_frame_round_trip Stub.live_options "on_result" "frame"
             _build_full_image_norm_rect 100 Stub.echoed_delivery
             (Stub.result_packet "cat" (At 100000))
             Stub.cat_proto Stub.after_live_frame_100
             eq_refl Himage Hresult eq_refl).
  reflexivity.
Defined.

Lemma delivered_timestamp_is_floor_witness :
  Stub.full_delivery !! _IMAGE_OUT_STREAM_NAME
  = Some (at_ (create_image "frame") 100999)
  /\ callback_calls
       (snd (packets_callback Stub.live_options Stub.full_delivery
               initial_state))
     = (callback_calls initial_state
        ++ [ {| callee := "on_result";
                call_result := Stub.cat_result;
                call_image := "frame";
                call_timestamp_ms := 100 |} ])%list
  /\ 1000 * 100 <= 100999 < 1000 * 100 + 1000.
Proof.
  assert (Himage : Stub.full_delivery !! _IMAGE_OUT_STREAM_NAME
                   = Some (at_ (create_image "frame") 100999))
    by (vm_compute; reflexivity).
  assert (Hlogged :
    callback_calls
      (snd (packets_callback Stub.live_options Stub.full_delivery
              initial_state))
    = (callback_calls initial_state
       ++ [ {| callee := "on_result";
               call_result := Stub.cat_result;
               call_image := "frame";
               call_timestamp_ms := 100 |} ])%list)
    by (vm_compute; reflexivity).
  split; [exact Himage |]. split; [exact Hlogged |].
  exact (delivered_timestamp_is_floor Stub.live_options Stub.full_delivery
           (at_ (create_image "frame") 100999) initial_state _
           Himage Hlogged).
Defined.

Lemma callback_result_is_sync_result_witness :
  callback_calls
    (snd (packets_callback Stub.live_options Stub.full_delivery initial_state))
  = (callback_calls initial_state
     ++ [ {| callee := "on_result";
             call_result := Stub.cat_result;
             call_image := "frame";
             call_timestamp_ms := 100 |} ])%list
  /\ classification_result_of Stub.full_delivery initial_state
     = (inr Stub.cat_result, initial_state).
Proof.
  assert (Hlogged :
    callback_calls
      (snd (packets_callback Stub.live_options Stub.full_delivery
              initial_state))
    = (callback_calls initial_state
       ++ [ {| callee := "on_result";
               call_result := Stub.cat_result;
               call_image := "frame";
               call_timestamp_ms := 100 |} ])%list)
    by (vm_compute; reflexivity).
  split; [exact Hlogged |].
  exact (callback_result_is_sync_result Stub.live_options Stub.full_delivery
           initial_state _ Hlogged).
Defined.

Lemma callbacks_keep_timestamp_order_witness :
  omap image_out_us Stub.deliveries = [100000; 100000; 100999; 300000]
  /\ Sorted Z.le (omap image_out_us Stub.deliveries)
  /\ Sorted Z.le
       (call_timestamp_ms
          <$> drop (length (callback_calls initial_state))
                (callback_calls
                   (deliver_all Stub.live_options Stub.deliveries
                      initial_state)))
  /\ call_timestamp_ms
       <$> callback_calls
             (deliver_all Stub.live_options Stub.deliveries initial_state)
     = [100; 100; 300].
Proof.
  assert (Hus : omap image_out_us Stub.deliveries
                = [100000; 100000; 100999; 300000])
    by (vm_compute; reflexivity).
  assert (Hsorted : Sorted Z.le (omap image_out_us Stub.deliveries)).
  { rewrite Hus. repeat constructor; lia. }
  split; [exact Hus |]. split; [exact Hsorted |]. split.
  - exact (callbacks_keep_timestamp_order Stub.live_options Stub.deliveries
             initial_state Hsorted).
  - vm_compute. reflexivity.
Defined.

Lemma declared_outputs_suffice_witness :
  (forall tagged,
     tagged ∈ output_streams (task_info_of Stub.live_options) ->
     is_Some (Stub.full_delivery !! stream_name tagged))
  /\ fst (packets_callback Stub.live_options Stub.full_delivery initial_state)
     <> inl (KeyError "image_out")
  /\ fst (classification_result_of Stub.full_delivery initial_state)
     <> inl (KeyError "classification_result_out").
Proof.
  assert (Hdeclared :
    forall tagged,
      tagged ∈ output_streams (task_info_of Stub.live_options) ->
      is_Some (Stub.full_delivery !! stream_name tagged)).
  { intros tagged Hin.
    apply list_elem_of_In in Hin.
    destruct Hin as [<- | [<- | []]]; vm_compute; eexists; reflexivity. }
  split; [exact Hdeclared |]. split.
  - exact (proj1 (declared_outputs_suffice Stub.live_options Stub.full_delivery
                    initial_state Hdeclared "image_out")).
  - exact (proj2 (declared_outputs_suffice Stub.live_options Stub.full_delivery
                    initial_state Hdeclared "classification_result_out")).
Defined.

Lemma flow_limited_graph_is_in_stream_mode_witness :
  create_from_options Stub.live_options = inr Stub.live_task
  /\ enable_flow_limiting (_graph_config Stub.live_task) = true
  /\ use_stream_mode
       (pb_base_options
          (to_pb2 (task_options (graph_source (_graph_config Stub.live_task)))))
     = true.
Proof.
  assert (Hlive : create_from_options Stub.live_options = inr Stub.live_task)
    by reflexivity.
  split; [exact Hlive |]. split; [reflexivity |].
  destruct (flow_limited_graph_is_in_stream_mode Stub.live_options
              Stub.live_task Hlive) as (_ & Hstream & _).
  apply Hstream. reflexivity.
Defined.

Lemma to_pb2_tells_image_mode_only_witness :
  base_options (Stub.options VIDEO None) = base_options Stub.live_options
  /\ classifier_options (Stub.options VIDEO None)
     = classifier_options Stub.live_options
  /\ to_pb2 (Stub.options VIDEO None) = to_pb2 Stub.live_options
  /\ to_pb2 (Stub.options IMAGE None) <> to_pb2 Stub.live_options.
Proof.
  split; [reflexivity |]. split; [reflexivity |]. split.
  - apply (to_pb2_tells_image_mode_only (Stub.options VIDEO None)
             Stub.live_options eq_refl eq_refl).
    split; discriminate.
  - intros Heq.
    apply (to_pb2_tells_image_mode_only (Stub.options IMAGE None)
             Stub.live_options eq_refl eq_refl) in Heq.
    destruct Heq as [Himage _]. discriminate (Himage eq_refl).
Defined.

Lemma create_from_model_path_is_image_mode_witness :
  create_from_model_path "model.tflite" = inr Stub.image_task
  /\ _running_mode Stub.image_task = IMAGE
  /\ enable_flow_limiting (_graph_config Stub.image_task) = false.
Proof.
  assert (Hcreate : create_from_model_path "model.tflite" = inr Stub.image_task)
    by reflexivity.
  split; [exact Hcreate |].
  destruct (create_from_model_path_is_image_mode "model.tflite"
              Stub.image_task Hcreate) as (Hmode & _ & Hflow & _).
  split; [exact Hmode | exact Hflow].
Defined.



End FurtherOnStub.
